(** * user_processor.py: a shallow embedding and its properties

    The module reads user rows from a CSV file, scores them, filters them
    by age and score, writes a text report and exports JSON.  Python
    values are embedded as a small tagged union, exceptions as an error
    monad, the module-level globals [data] and [THRESHOLD] as an explicit
    record threaded through [process_users], and the files written by
    [generate_report] and [export_json] as a store from paths to text. *)

From Stdlib Require Import ZArith List String Ascii Bool Lia.
From Stdlib Require Import DecimalString.
From Stdlib Require DecimalFacts DecimalPos DecimalZ.
Import ListNotations.

Local Open Scope string_scope.
Local Open Scope Z_scope.

(** ** Python values and exceptions *)

(** The values that occur in a row or a filter: [str], [int] and [None].
    A [str] is a sequence of code points below 256; an [int] is
    unbounded. *)
Inductive value : Type :=
| VStr (s : string)
| VInt (z : Z)
| VNone.

(** The exceptions the module can raise.  [ValueError] is the one of an
    invalid literal and carries the text that [int()] rejected;
    [ValueError_limit] is the [ValueError] of a decimal conversion, from
    text or to text, of more than 4300 digits.  [KeyError] carries the
    missing key, [NotImplementedError] and [UserDataError] their
    message. *)
Inductive exn : Type :=
| FileNotFoundError (path : string)
| KeyError (key : string)
| ValueError (literal : string)
| ValueError_limit
| TypeError
| OverflowError
| NotImplementedError (msg : string)
| UserDataError (msg : string).

Inductive result (A : Type) : Type :=
| Ok (a : A)
| Raise (e : exn).

Arguments Ok {A} a.
Arguments Raise {A} e.

Definition bind {A B : Type} (m : result A) (k : A -> result B) : result B :=
  match m with
  | Ok a => k a
  | Raise e => Raise e
  end.

Notation "x <- m ;; k" := (bind m (fun x => k))
  (at level 61, m at next level, right associativity).

(** ** Dictionaries

    A [dict] keeps its insertion order, so it is an association list; a
    well-formed one has no key twice. *)
Definition dict : Type := list (string * value).

Fixpoint dict_get (d : dict) (k : string) : option value :=
  match d with
  | [] => None
  | (k', v) :: d' => if String.eqb k' k then Some v else dict_get d' k
  end.

(** [d[k]] *)
Definition getitem (d : dict) (k : string) : result value :=
  match dict_get d k with
  | Some v => Ok v
  | None => Raise (KeyError k)
  end.

(** [d.get(k, default)] *)
Definition get_default (d : dict) (k : string) (default : value) : value :=
  match dict_get d k with
  | Some v => v
  | None => default
  end.

(** [d[k] = v]: an existing key keeps its position, a new one goes last. *)
Fixpoint setitem (d : dict) (k : string) (v : value) : dict :=
  match d with
  | [] => [(k, v)]
  | (k', v') :: d' =>
      if String.eqb k' k then (k', v) :: d' else (k', v') :: setitem d' k v
  end.

Definition keys (d : dict) : list string := map fst d.

(** ** [int()] *)

Definition is_digit (c : ascii) : bool :=
  let n := nat_of_ascii c in (48 <=? n)%nat && (n <=? 57)%nat.

(** The code points below 256 that [int()] skips as white space: the
    ASCII ones and the two Latin-1 spaces. *)
Definition is_space (c : ascii) : bool :=
  let n := nat_of_ascii c in
  ((9 <=? n)%nat && (n <=? 13)%nat) || (n =? 32)%nat
  || (n =? 133)%nat || (n =? 160)%nat.

Definition digit_val (c : ascii) : Z := Z.of_nat (nat_of_ascii c) - 48.

Fixpoint lstrip (s : string) : string :=
  match s with
  | String c s' => if is_space c then lstrip s' else s
  | EmptyString => s
  end.

Fixpoint all_space (s : string) : bool :=
  match s with
  | String c s' => is_space c && all_space s'
  | EmptyString => true
  end.

(** The most digits a decimal conversion takes, [sys.int_max_str_digits]
    as the interpreter starts. *)
Definition int_max_str_digits : nat := 4300.

(** What [int()] makes of a text. *)
Inductive int_parse : Type :=
| IntOk (z : Z)
| IntInvalid
| IntTooLong.

(** The digits of a base-10 literal after its sign: digits, a single
    underscore allowed between two digits.  [after_digit] tells whether
    the previous character was a digit, [n] counts the digits read; the
    scan ends at the first character that is neither and returns the
    value, the count and the text left. *)
Fixpoint int_digits (after_digit : bool) (acc : Z) (n : nat) (s : string)
  : option (Z * nat * string) :=
  match s with
  | EmptyString => Some (acc, n, s)
  | String c s' =>
      if is_digit c then int_digits true (acc * 10 + digit_val c) (S n) s'
      else if Ascii.eqb c "_" then
        match s' with
        | String c' _ =>
            if after_digit && is_digit c' then int_digits false acc n s'
            else None
        | EmptyString => None
        end
      else Some (acc, n, s)
  end.

(** The literal after its sign: a misplaced underscore is an invalid
    literal; then the number of digits, leading zeros included, is
    checked against the limit; then there must be a digit, and only
    white space may follow. *)
Definition int_magnitude (s : string) : int_parse :=
  match int_digits false 0 0 s with
  | None => IntInvalid
  | Some (z, n, rest) =>
      if (int_max_str_digits <? n)%nat then IntTooLong
      else if (n =? 0)%nat then IntInvalid
      else if all_space rest then IntOk z
      else IntInvalid
  end.

Definition int_negate (r : int_parse) : int_parse :=
  match r with
  | IntOk z => IntOk (- z)
  | _ => r
  end.

(** [int(s)] for a [str]: white space is stripped, one sign is allowed. *)
Definition int_of_str (s : string) : int_parse :=
  match lstrip s with
  | String "+" s' => int_magnitude s'
  | String "-" s' => int_negate (int_magnitude s')
  | s' => int_magnitude s'
  end.

Definition py_int (v : value) : result Z :=
  match v with
  | VInt z => Ok z
  | VStr s =>
      match int_of_str s with
      | IntOk z => Ok z
      | IntInvalid => Raise (ValueError s)
      | IntTooLong => Raise ValueError_limit
      end
  | VNone => Raise TypeError
  end.

(** ** calculate_score *)

Definition calculate_score (p v : value) : result Z :=
  a <- py_int p ;;
  b <- py_int v ;;
  Ok (a * 10 + b * 5).

(** ** Module-level globals

    [data = []] and [THRESHOLD = 100] live for the whole run of the
    interpreter; every call reads them and the state it leaves behind is
    the state the next call starts from. *)
Record globals : Type := Globals { data : list dict; THRESHOLD : Z }.

Definition initial_globals : globals := {| data := []; THRESHOLD := 100 |}.

(** The rows [csv.DictReader] yields when the file at a path is read to
    its end, [None] when there is no such file.  A row maps the names of
    the header to the fields of its line, as strings, and to [None] where
    the line is short.  Two things a file can do are outside this type: a
    read that fails part way (a byte that does not decode, a malformed
    quote), and a line with more fields than the header, whose extra
    fields the reader stores as a list under the key [None]. *)
Definition csv_files : Type := string -> option (list dict).

(** The [filters] argument is a list of references to dicts owned by the
    caller; the objects themselves live in a heap, so that a dict listed
    twice is one object.  The heap holds the caller's own dicts, not the
    rows of [data]: a caller that hands a returned row back as a filter
    is outside the model. *)
Definition heap : Type := list dict.

Fixpoint heap_set (h : heap) (r : nat) (d : dict) : heap :=
  match h, r with
  | [], _ => []
  | _ :: h', O => d :: h'
  | x :: h', S r' => x :: heap_set h' r' d
  end.

(** ** process_users *)

(** The body of the loop over [data]: does row [d] go to [results]? *)
Definition keep (threshold : Z) (d : dict) : result bool :=
  a <- getitem d "age" ;;
  age <- py_int a ;;
  if age >? 18 then
    p <- getitem d "purchases" ;;
    v <- getitem d "visits" ;;
    score <- calculate_score p v ;;
    Ok (score >? threshold)
  else Ok false.

Fixpoint select (threshold : Z) (ds results : list dict)
  : result (list dict) :=
  match ds with
  | [] => Ok results
  | d :: ds' =>
      b <- keep threshold d ;;
      select threshold ds' (if b then (results ++ [d])%list else results)
  end.

(** [filter['count'] = filter.get('count', 0) + 1] *)
Definition bump (filter : dict) : result dict :=
  match get_default filter "count" (VInt 0) with
  | VInt n => Ok (setitem filter "count" (VInt (n + 1)))
  | VStr _ | VNone => Raise TypeError
  end.

(** The loop over [filters]; the heap it returns holds the updates made
    before an exception, if any. *)
Fixpoint apply_filters (h : heap) (filters : list nat) : heap * result unit :=
  match filters with
  | [] => (h, Ok tt)
  | r :: filters' =>
      match nth_error h r with
      | None => (h, Raise TypeError)
      | Some filter =>
          match bump filter with
          | Ok filter' => apply_filters (heap_set h r filter') filters'
          | Raise e => (h, Raise e)
          end
      end
  end.

Definition process_users (g : globals) (h : heap) (files : csv_files)
    (file : string) (filters : list nat)
  : globals * heap * result (list dict) :=
  match files file with
  | None => (g, h, Raise (FileNotFoundError file))
  | Some rows =>
      let g' := {| data := (data g ++ rows)%list; THRESHOLD := THRESHOLD g |} in
      match select (THRESHOLD g') (data g') [] with
      | Raise e => (g', h, Raise e)
      | Ok results =>
          match apply_filters h filters with
          | (h', Ok _) => (g', h', Ok results)
          | (h', Raise e) => (g', h', Raise e)
          end
      end
  end.

(** ** Text files *)

Definition text_files : Type := string -> option string.

(** [open(path, 'w')], the writes and [close()]: the file is created or
    replaced by [text].  The path is taken to be one that can be opened
    for writing.  Where an exception skips [close()], [text] is what was
    handed to the file object, which reaches the file when the
    interpreter finalises that object, not before. *)
Definition write_file (fs : text_files) (path text : string) : text_files :=
  fun p => if String.eqb p path then Some text else fs p.

Definition nl : string := String (ascii_of_nat 10) EmptyString.

(** The decimal text of an integer. *)
Definition str_of_Z (z : Z) : string := NilZero.string_of_int (Z.to_int z).

(** The number of decimal digits of an integer, its sign apart. *)
Definition num_digits (z : Z) : nat :=
  Decimal.nb_digits (Decimal.abs (Z.to_int z)).

(** [str(z)] for an [int], as [str], an f-string and [json.dump] compute
    it: a number of more than 4300 digits is refused. *)
Definition str_int (z : Z) : result string :=
  if (int_max_str_digits <? num_digits z)%nat then Raise ValueError_limit
  else Ok (str_of_Z z).

(** How an f-string renders a value. *)
Definition py_str (v : value) : result string :=
  match v with
  | VStr s => Ok s
  | VInt z => str_int z
  | VNone => Ok "None"
  end.

(** ** generate_report *)

Definition user_score (u : dict) : result Z :=
  p <- getitem u "purchases" ;;
  v <- getitem u "visits" ;;
  calculate_score p v.

(** One turn of the loop over [users]: the text it writes. *)
Definition report_line (u : dict) : result string :=
  s <- user_score u ;;
  name <- getitem u "name" ;;
  name_text <- py_str name ;;
  score_text <- str_int s ;;
  Ok ("User: " ++ name_text ++ ", Score: " ++ score_text ++ nl).

(** The loop over [users], from [total] and the text written so far; on an
    exception the text written before it stays with the file. *)
Fixpoint write_users (users : list dict) (total : Z) (out : string)
  : Z * string * result unit :=
  match users with
  | [] => (total, out, Ok tt)
  | u :: users' =>
      match report_line u with
      | Ok line => write_users users' (total + 1) (out ++ line)
      | Raise e => (total + 1, out, Raise e)
      end
  end.

Fixpoint scores (users : list dict) : result (list Z) :=
  match users with
  | [] => Ok []
  | u :: users' =>
      s <- user_score u ;;
      rest <- scores users' ;;
      Ok (s :: rest)
  end.

(** The builtin [sum] on a list of ints. *)
Definition py_sum (l : list Z) : Z := fold_left Z.add l 0.

Section Report.

(** [str(a / b)] for ints [a] and [b <> 0]: the text of the float
    quotient, or [OverflowError].  Floating point is not modelled; the
    text is left to the caller of the model. *)
Variable str_truediv : Z -> Z -> result string.

Definition average (users : list dict) (total : Z) : result string :=
  if total >? 0 then
    l <- scores users ;;
    str_truediv (py_sum l) total
  else Ok "0".

(** [total] counts a list held in memory, so its text is always within
    the limit of [str]. *)
Definition generate_report (fs : text_files) (users : list dict)
    (output : string) : text_files * result bool :=
  match write_users users 0 "" with
  | (total, out, Raise e) => (write_file fs output out, Raise e)
  | (total, out, Ok _) =>
      match average users total with
      | Raise e => (write_file fs output out, Raise e)
      | Ok avg =>
          let out1 := out ++ nl ++ "Total users: " ++ str_of_Z total ++ nl in
          let out2 := out1 ++ "Average score: " ++ avg ++ nl in
          (write_file fs output out2, Ok true)
      end
  end.

End Report.

(** ** json.dump

    The text [json.dump] writes with its default settings: [", "] between
    items, [": "] after a key, and every character outside the printable
    ASCII range escaped. *)

Definition dquote : ascii := ascii_of_nat 34.
Definition backslash : ascii := ascii_of_nat 92.

Definition hex_digit (n : nat) : ascii :=
  if (n <? 10)%nat then ascii_of_nat (48 + n) else ascii_of_nat (87 + n).

Definition escape_char (c : ascii) : string :=
  let n := nat_of_ascii c in
  if (n =? 34)%nat then String backslash (String dquote "")
  else if (n =? 92)%nat then String backslash (String backslash "")
  else if (n =? 10)%nat then String backslash "n"
  else if (n =? 13)%nat then String backslash "r"
  else if (n =? 9)%nat then String backslash "t"
  else if (n =? 8)%nat then String backslash "b"
  else if (n =? 12)%nat then String backslash "f"
  else if (n <? 32)%nat || (126 <? n)%nat then
    String backslash
      ("u00" ++ String (hex_digit (n / 16)) (String (hex_digit (n mod 16)) ""))
  else String c "".

Fixpoint escape (s : string) : string :=
  match s with
  | EmptyString => ""
  | String c s' => escape_char c ++ escape s'
  end.

Definition quote (s : string) : string :=
  String dquote (escape s ++ String dquote "").

(** The text of one value. *)
Definition dump_value (v : value) : result string :=
  match v with
  | VStr s => Ok (quote s)
  | VInt z => str_int z
  | VNone => Ok "null"
  end.

(** The encoder yields the text piece by piece and [json.dump] writes
    each piece as it comes, so an exception leaves what was written
    before it.  [out] is the text written so far.  The members of an
    object, after its opening brace: *)
Fixpoint write_members (first : bool) (d : dict) (out : string)
  : string * result unit :=
  match d with
  | [] => (out, Ok tt)
  | (k, v) :: d' =>
      let out1 := out ++ (if first then "" else ", ") ++ quote k ++ ": " in
      match dump_value v with
      | Ok text => write_members false d' (out1 ++ text)
      | Raise e => (out1, Raise e)
      end
  end.

Definition write_dict (d : dict) (out : string) : string * result unit :=
  match d with
  | [] => (out ++ "{}", Ok tt)
  | _ =>
      match write_members true d (out ++ "{") with
      | (out', Ok _) => (out' ++ "}", Ok tt)
      | (out', Raise e) => (out', Raise e)
      end
  end.

(** The items of an array, after its opening bracket. *)
Fixpoint write_dicts (first : bool) (users : list dict) (out : string)
  : string * result unit :=
  match users with
  | [] => (out, Ok tt)
  | u :: users' =>
      match write_dict u (out ++ (if first then "" else ", ")) with
      | (out', Ok _) => write_dicts false users' out'
      | (out', Raise e) => (out', Raise e)
      end
  end.

(** [json.dump(users, f)]: the text written and the outcome. *)
Definition json_dump (users : list dict) : string * result unit :=
  match users with
  | [] => ("[]", Ok tt)
  | _ =>
      match write_dicts true users "[" with
      | (out, Ok _) => (out ++ "]", Ok tt)
      | (out, Raise e) => (out, Raise e)
      end
  end.

(** ** export_json *)

(** The file is opened, which creates or empties it, and filled by
    [json.dump]; when that raises, [close()] is not reached and the file
    is left with what was written. *)
Definition export_json (fs : text_files) (users : list dict) (file : string)
  : text_files * result unit :=
  let (text, r) := json_dump users in (write_file fs file text, r).

(** ** json.load

    The decoder, for documents that are an array of objects whose values
    are strings of code points below 256, integers or [null]; [None]
    stands for a decoding error and for any document of another shape. *)

Definition is_json_ws (c : ascii) : bool :=
  let n := nat_of_ascii c in
  (n =? 32)%nat || (n =? 9)%nat || (n =? 10)%nat || (n =? 13)%nat.

Fixpoint skip_ws (s : string) : string :=
  match s with
  | String c s' => if is_json_ws c then skip_ws s' else s
  | EmptyString => s
  end.

Definition hex_val (c : ascii) : option nat :=
  let n := nat_of_ascii c in
  if is_digit c then Some (n - 48)%nat
  else if (97 <=? n)%nat && (n <=? 102)%nat then Some (n - 87)%nat
  else if (65 <=? n)%nat && (n <=? 70)%nat then Some (n - 55)%nat
  else None.

Definition hex4 (a b c d : ascii) : option nat :=
  match hex_val a, hex_val b, hex_val c, hex_val d with
  | Some x, Some y, Some z, Some w =>
      Some (((x * 16 + y) * 16 + z) * 16 + w)%nat
  | _, _, _, _ => None
  end.

(** The character a backslash escape other than [\u] stands for. *)
Definition unescape (e : ascii) : option ascii :=
  let n := nat_of_ascii e in
  if (n =? 34)%nat then Some dquote
  else if (n =? 92)%nat then Some backslash
  else if (n =? 47)%nat then Some "/"%char
  else if (n =? 98)%nat then Some (ascii_of_nat 8)
  else if (n =? 102)%nat then Some (ascii_of_nat 12)
  else if (n =? 110)%nat then Some (ascii_of_nat 10)
  else if (n =? 114)%nat then Some (ascii_of_nat 13)
  else if (n =? 116)%nat then Some (ascii_of_nat 9)
  else None.

Definition cons_char (c : ascii) (r : option (string * string))
  : option (string * string) :=
  match r with
  | Some (t, rest) => Some (String c t, rest)
  | None => None
  end.

(** The body of a string literal, after its opening quote: the decoded
    string and the text after the closing quote. *)
Fixpoint scan_string (s : string) : option (string * string) :=
  match s with
  | EmptyString => None
  | String c r =>
      if Ascii.eqb c dquote then Some ("", r)
      else if Ascii.eqb c backslash then
        match r with
        | String e r1 =>
            if Ascii.eqb e "u" then
              match r1 with
              | String h1 (String h2 (String h3 (String h4 r2))) =>
                  match hex4 h1 h2 h3 h4 with
                  | Some n =>
                      if (n <? 256)%nat
                      then cons_char (ascii_of_nat n) (scan_string r2)
                      else None
                  | None => None
                  end
              | _ => None
              end
            else
              match unescape e with
              | Some c' => cons_char c' (scan_string r1)
              | None => None
              end
        | EmptyString => None
        end
      else if (nat_of_ascii c <? 32)%nat then None
      else cons_char c (scan_string r)
  end.

Fixpoint take_digits (s : string) : string * string :=
  match s with
  | String c r =>
      if is_digit c
      then let (d, rest) := take_digits r in (String c d, rest)
      else ("", s)
  | EmptyString => ("", "")
  end.

(** The integer part of a number: [0], or digits that do not start with
    [0]. *)
Definition scan_digits (s : string) : option (string * string) :=
  match s with
  | String c r =>
      if Ascii.eqb c "0" then Some ("0", r)
      else if is_digit c then Some (take_digits s)
      else None
  | EmptyString => None
  end.

Definition is_float_mark (s : string) : bool :=
  match s with
  | String c _ => Ascii.eqb c "." || Ascii.eqb c "e" || Ascii.eqb c "E"
  | EmptyString => false
  end.

Definition scan_sign (s : string) : bool * string :=
  match s with
  | String c r => if Ascii.eqb c "-" then (true, r) else (false, s)
  | EmptyString => (false, s)
  end.

(** A number; one with a fraction or an exponent is a float and outside
    the model, and [int()] refuses one of more than 4300 digits. *)
Definition scan_number (s : string) : option (Z * string) :=
  let (neg, s1) := scan_sign s in
  match scan_digits s1 with
  | Some (lit, rest) =>
      if is_float_mark rest then None
      else if (int_max_str_digits <? String.length lit)%nat then None
      else
        match NilEmpty.uint_of_string lit with
        | Some d => Some (if neg then - Z.of_uint d else Z.of_uint d, rest)
        | None => None
        end
  | None => None
  end.

Definition scan_value (s : string) : option (value * string) :=
  match s with
  | String c r =>
      if Ascii.eqb c dquote then
        match scan_string r with
        | Some (t, rest) => Some (VStr t, rest)
        | None => None
        end
      else if Ascii.eqb c "n" then
        match r with
        | String "u" (String "l" (String "l" rest)) => Some (VNone, rest)
        | _ => None
        end
      else
        match scan_number s with
        | Some (z, rest) => Some (VInt z, rest)
        | None => None
        end
  | EmptyString => None
  end.

(** The members of an object from the opening quote of a key on; a key
    met again replaces the value it had. *)
Fixpoint scan_members (fuel : nat) (s : string) (acc : dict)
  : option (dict * string) :=
  match fuel with
  | O => None
  | S fuel' =>
      match s with
      | String c r =>
          if Ascii.eqb c dquote then
            match scan_string r with
            | Some (k, r1) =>
                match skip_ws r1 with
                | String ":" r2 =>
                    match scan_value (skip_ws r2) with
                    | Some (v, r3) =>
                        let acc' := setitem acc k v in
                        match skip_ws r3 with
                        | String "}" r4 => Some (acc', r4)
                        | String "," r4 =>
                            scan_members fuel' (skip_ws r4) acc'
                        | _ => None
                        end
                    | None => None
                    end
                | _ => None
                end
            | None => None
            end
          else None
      | EmptyString => None
      end
  end.

(** An object, after its opening brace. *)
Definition scan_object (fuel : nat) (s : string) : option (dict * string) :=
  match skip_ws s with
  | String "}" rest => Some ([], rest)
  | s' => scan_members fuel s' []
  end.

(** The items of an array from the first character of an item on. *)
Fixpoint scan_items (fuel : nat) (s : string) (acc : list dict)
  : option (list dict * string) :=
  match fuel with
  | O => None
  | S fuel' =>
      match s with
      | String "{" r =>
          match scan_object fuel' r with
          | Some (d, r1) =>
              let acc' := (acc ++ [d])%list in
              match skip_ws r1 with
              | String "]" r2 => Some (acc', r2)
              | String "," r2 => scan_items fuel' (skip_ws r2) acc'
              | _ => None
              end
          | None => None
          end
      | _ => None
      end
  end.

(** An array, after its opening bracket. *)
Definition scan_array (fuel : nat) (s : string)
  : option (list dict * string) :=
  match skip_ws s with
  | String "]" rest => Some ([], rest)
  | s' => scan_items fuel s' []
  end.

Definition json_loads (s : string) : option (list dict) :=
  match skip_ws s with
  | String "[" r =>
      match scan_array (String.length s) r with
      | Some (users, rest) =>
          match skip_ws rest with
          | EmptyString => Some users
          | _ => None
          end
      | None => None
      end
  | _ => None
  end.

(** [json.load(open(path))] *)
Definition json_load (fs : text_files) (path : string)
  : option (list dict) :=
  match fs path with
  | Some text => json_loads text
  | None => None
  end.

(** ** The refactoring skeleton

    [UserDataError] is declared and never raised; the three entry points
    below raise [NotImplementedError] as their whole body. *)

Definition ScoringConfig_init (purchase_weight visit_weight : value)
  : result unit :=
  Raise (NotImplementedError "ScoringConfig.__init__ called").

Definition read_users_from_csv (filepath : string) : result (list dict) :=
  Raise (NotImplementedError "read_users_from_csv called").

Definition calculate_user_score (purchases visits config : value)
  : result Z :=
  Raise (NotImplementedError "calculate_user_score called").

(** ** Data of the test suite *)

Definition row (name age purchases visits : string) : dict :=
  [("name", VStr name); ("age", VStr age);
   ("purchases", VStr purchases); ("visits", VStr visits)].

(** The one file of a directory that holds [rows] at [path]. *)
Definition one_file (path : string) (rows : list dict) : csv_files :=
  fun p => if String.eqb p path then Some rows else None.

Definition sample_rows : list dict :=
  [row "Alice Johnson" "25" "15" "30"; row "Bob Smith" "17" "5" "10";
   row "Carol White" "35" "25" "50"; row "David Brown" "42" "8" "20";
   row "Eve Davis" "29" "30" "45"; row "Frank Miller" "19" "12" "25";
   row "Grace Lee" "55" "40" "80"].

Definition invalid_rows : list dict := [row "John Doe" "invalid_age" "10" "20"].

Definition age_edge_rows : list dict :=
  [row "Exactly18" "18" "50" "50"; row "Above18" "19" "50" "50"].

Definition score_edge_rows : list dict :=
  [row "ExactScore" "25" "10" "0"; row "AboveScore" "25" "11" "0"].

Definition report_users : list dict :=
  [[("name", VStr "Alice"); ("score", VInt 300)];
   [("name", VStr "Bob"); ("score", VInt 200)]].


Definition no_files : text_files := fun _ => None.


(** ** main

    The script: the three steps on their default paths, then a line on
    standard output.  [filters] is the empty default, so no object of a
    caller is involved. *)

Section Main.

Variable str_truediv : Z -> Z -> result string.

Definition main (g : globals) (files : csv_files) (fs : text_files)
    (stdout : string) : globals * text_files * string * result unit :=
  match process_users g [] files "users.csv" [] with
  | (g', _, Raise e) => (g', fs, stdout, Raise e)
  | (g', _, Ok users) =>
      match generate_report str_truediv fs users "report.txt" with
      | (fs1, Raise e) => (g', fs1, stdout, Raise e)
      | (fs1, Ok _) =>
          match export_json fs1 users "output.json" with
          | (fs2, Raise e) => (g', fs2, stdout, Raise e)
          | (fs2, Ok _) => (g', fs2, stdout ++ "Done!" ++ nl, Ok tt)
          end
      end
  end.

End Main.

(** ** Notions used in the statements *)

(** The text [json.dump] writes when every integer can be rendered. *)
Definition value_text (v : value) : string :=
  match v with
  | VStr s => quote s
  | VInt z => str_of_Z z
  | VNone => "null"
  end.

Definition member_text (kv : string * value) : string :=
  quote (fst kv) ++ ": " ++ value_text (snd kv).

Fixpoint join (sep : string) (l : list string) : string :=
  match l with
  | [] => ""
  | [x] => x
  | x :: l' => x ++ sep ++ join sep l'
  end.

Definition dict_text (d : dict) : string :=
  "{" ++ join ", " (map member_text d) ++ "}".

Definition json_text (users : list dict) : string :=
  "[" ++ join ", " (map dict_text users) ++ "]".

(** A value [str] and [json.dump] can render: any string, [None], and
    an integer of at most 4300 digits. *)
Definition renders (v : value) : Prop :=
  match v with
  | VInt z => (num_digits z <= int_max_str_digits)%nat
  | _ => True
  end.


(** Whether the loop of [process_users] appends [d] to [results]. *)
Definition kept (threshold : Z) (d : dict) : bool :=
  match keep threshold d with
  | Ok true => true
  | _ => false
  end.

(** The lines of a report body, one after the other. *)
Definition flat (lines : list string) : string :=
  fold_right String.append "" lines.




(** Characters from the space to the tilde. *)
Definition printable (c : ascii) : bool :=
  let n := nat_of_ascii c in (32 <=? n)%nat && (n <=? 126)%nat.

Fixpoint all_printable (s : string) : bool :=
  match s with
  | EmptyString => true
  | String c s' => printable c && all_printable s'
  end.

(** [n] copies of a list of rows, one after the other. *)
Fixpoint copies (n : nat) (rows : list dict) : list dict :=
  match n with
  | O => []
  | S n' => (copies n' rows ++ rows)%list
  end.

(** * Properties *)

(** ** The error monad *)

Lemma bind_Ok {A B : Type} (m : result A) (k : A -> result B) (b : B) :
  bind m k = Ok b -> exists a, m = Ok a /\ k a = Ok b.
Proof.
  destruct m as [a | e]; simpl; intros H; [exists a; auto | discriminate].
Qed.

Ltac bind_inv H :=
  let a := fresh "a" in
  let Ha := fresh "Ha" in
  apply bind_Ok in H; destruct H as (a & Ha & H).

(** ** calculate_score *)

(** C1: whenever [int(p)] and [int(v)] succeed with [a] and [b],
    [calculate_score(p, v)] returns exactly [a * 10 + b * 5]: the
    multipliers are 10 for purchases and 5 for visits. *)
Theorem calculate_score_formula (p v : value) (a b : Z) :
  py_int p = Ok a -> py_int v = Ok b ->
  calculate_score p v = Ok (a * 10 + b * 5).
Proof.
  intros Hp Hv. unfold calculate_score. rewrite Hp. simpl.
  rewrite Hv. reflexivity.
Qed.

Lemma calculate_score_formula_witness :
  py_int (VStr "15") = Ok 15 /\ py_int (VInt 30) = Ok 30 /\
  calculate_score (VStr "15") (VInt 30) = Ok (15 * 10 + 30 * 5).
Proof.
  split; [reflexivity | split; [reflexivity |]].
  apply (calculate_score_formula (VStr "15") (VInt 30) 15 30); reflexivity.
Defined.

Example calculate_score_15_30 : calculate_score (VInt 15) (VInt 30) = Ok 300.
Proof. reflexivity. Qed.

Example calculate_score_0_0 : calculate_score (VInt 0) (VInt 0) = Ok 0.
Proof. reflexivity. Qed.

Example calculate_score_of_strings :
  calculate_score (VStr "100") (VStr " 200 ") = Ok 2000.
Proof. reflexivity. Qed.

(** A score exists exactly when both conversions succeed. *)
Lemma calculate_score_Ok (p v : value) (s : Z) :
  calculate_score p v = Ok s <->
  exists a b, py_int p = Ok a /\ py_int v = Ok b /\ s = a * 10 + b * 5.
Proof.
  split.
  - intros H. unfold calculate_score in H.
    bind_inv H. bind_inv H. injection H as <-. eauto.
  - intros (a & b & Hp & Hv & ->). now apply calculate_score_formula.
Qed.

(** ** The selection loop of process_users *)

Lemma select_Ok (t : Z) (ds : list dict) :
  forall acc res,
    select t ds acc = Ok res ->
    res = (acc ++ filter (kept t) ds)%list /\
    Forall (fun d => exists b, keep t d = Ok b) ds.
Proof.
  induction ds as [| d ds IH]; simpl; intros acc res H.
  - injection H as <-. rewrite app_nil_r. auto.
  - bind_inv H. apply IH in H. destruct H as [-> Hall].
    split.
    + unfold kept at 2. rewrite Ha. destruct a; [| reflexivity].
      now rewrite <- app_assoc.
    + constructor; eauto.
Qed.

Lemma select_total (t : Z) (ds : list dict) :
  Forall (fun d => exists b, keep t d = Ok b) ds ->
  forall acc, select t ds acc = Ok (acc ++ filter (kept t) ds)%list.
Proof.
  induction 1 as [| d ds [b Hb] _ IH]; simpl; intros acc.
  - now rewrite app_nil_r.
  - rewrite Hb. simpl. rewrite IH. unfold kept at 2. rewrite Hb.
    destruct b; [now rewrite <- app_assoc | reflexivity].
Qed.

Lemma keep_true (t : Z) (d : dict) :
  keep t d = Ok true <->
  exists age score,
    (a <- getitem d "age" ;; py_int a) = Ok age /\ age > 18 /\
    user_score d = Ok score /\ score > t.
Proof.
  unfold keep, user_score. split.
  - intros H. bind_inv H. bind_inv H.
    exists a0. rewrite Ha. simpl. rewrite Ha0.
    destruct (a0 >? 18) eqn:Hage; [| discriminate].
    bind_inv H. bind_inv H. bind_inv H. injection H as H.
    exists a3. rewrite Ha1. simpl. rewrite Ha2. simpl. rewrite Ha3.
    repeat split; auto.
    + now apply Z.gtb_gt.
    + now apply Z.gtb_gt.
  - intros (age & score & Hage & Hgt & Hscore & Hs).
    bind_inv Hage. rewrite Ha. simpl. rewrite Hage. simpl.
    apply Z.gtb_gt in Hgt. rewrite Hgt.
    bind_inv Hscore. bind_inv Hscore.
    rewrite Ha0. simpl. rewrite Ha1. simpl. rewrite Hscore. simpl.
    apply Z.gtb_gt in Hs. now rewrite Hs.
Qed.

Lemma select_app (t : Z) (xs ys : list dict) :
  forall acc,
    select t (xs ++ ys)%list acc = (r <- select t xs acc ;; select t ys r).
Proof.
  induction xs as [| x xs IH]; simpl; intros acc; [reflexivity |].
  destruct (keep t x) as [b | e]; simpl; [apply IH | reflexivity].
Qed.

(** ** Dictionaries and the heap *)




Lemma nth_error_heap_set_neq (h : heap) (r r' : nat) (d : dict) :
  r <> r' -> nth_error (heap_set h r d) r' = nth_error h r'.
Proof.
  revert r r'.
  induction h as [| x h IH]; intros [| r] [| r'] Hne; simpl; auto.
  now destruct Hne.
Qed.

Lemma bump_Ok (f f' : dict) :
  bump f = Ok f' ->
  exists n, get_default f "count" (VInt 0) = VInt n /\
            f' = setitem f "count" (VInt (n + 1)).
Proof.
  unfold bump. destruct (get_default f "count" (VInt 0)); try discriminate.
  intros [= <-]. eauto.
Qed.


(** ** process_users *)

Lemma process_users_Ok (g g' : globals) (h h' : heap) (files : csv_files)
    (file : string) (filters : list nat) (rows results : list dict) :
  files file = Some rows ->
  process_users g h files file filters = (g', h', Ok results) ->
  g' = {| data := (data g ++ rows)%list; THRESHOLD := THRESHOLD g |} /\
  select (THRESHOLD g) (data g ++ rows)%list [] = Ok results /\
  apply_filters h filters = (h', Ok tt).
Proof.
  intros Hf H. unfold process_users in H. rewrite Hf in H. simpl in H.
  destruct (select (THRESHOLD g) (data g ++ rows)%list []) as [res | e];
    [| discriminate].
  destruct (apply_filters h filters) as [h1 [[] | e]]; [| discriminate].
  injection H as <- <- <-. auto.
Qed.

(** A call returns a list as soon as the file exists, every row [data]
    then holds converts, and every filter has an integer count. *)
Lemma process_users_returns (g : globals) (h : heap) (files : csv_files)
    (file : string) (filters : list nat) (rows : list dict) :
  files file = Some rows ->
  Forall (fun d => exists b, keep (THRESHOLD g) d = Ok b)
    (data g ++ rows)%list ->
  snd (apply_filters h filters) = Ok tt ->
  snd (process_users g h files file filters)
  = Ok (filter (kept (THRESHOLD g)) (data g ++ rows)%list).
Proof.
  intros Hf Hall Hfl. unfold process_users. rewrite Hf. simpl.
  rewrite select_total by assumption.
  destruct (apply_filters h filters) as [h1 [[] | e]]; simpl in *;
    [reflexivity | discriminate].
Qed.

(** C2: when a call returns, a row of the file is in the returned list if
    and only if its age is strictly above 18 and its score is strictly
    above [THRESHOLD] (100 unless the global was rebound). *)
Theorem process_users_keeps_iff (g g' : globals) (h h' : heap)
    (files : csv_files) (file : string) (filters : list nat)
    (rows results : list dict) :
  files file = Some rows ->
  process_users g h files file filters = (g', h', Ok results) ->
  forall d, In d rows ->
    (In d results <->
     exists age score,
       (a <- getitem d "age" ;; py_int a) = Ok age /\ age > 18 /\
       user_score d = Ok score /\ score > THRESHOLD g).
Proof.
  intros Hf H d Hd.
  destruct (process_users_Ok _ _ _ _ _ _ _ _ _ Hf H) as (_ & Hsel & _).
  apply select_Ok in Hsel. destruct Hsel as [-> _]. simpl.
  rewrite filter_In, <- keep_true. unfold kept. split.
  - intros [_ Hk]. destruct (keep (THRESHOLD g) d) as [[|] | e];
      [reflexivity | discriminate | discriminate].
  - intros Hk. rewrite Hk. split; [| reflexivity].
    apply in_or_app. now right.
Qed.

Lemma process_users_keeps_iff_witness :
  In (row "Above18" "19" "50" "50") [row "Above18" "19" "50" "50"] <->
  exists age score,
    (a <- getitem (row "Above18" "19" "50" "50") "age" ;; py_int a) = Ok age /\
    age > 18 /\
    user_score (row "Above18" "19" "50" "50") = Ok score /\
    score > THRESHOLD initial_globals.
Proof.
  apply (process_users_keeps_iff initial_globals
           {| data := age_edge_rows; THRESHOLD := 100 |} [] []
           (one_file "edge.csv" age_edge_rows) "edge.csv" []
           age_edge_rows [row "Above18" "19" "50" "50"]).
  - reflexivity.
  - reflexivity.
  - simpl. auto.
Defined.

(** The boundary rows of the test suite: age 18 and score 100 are left
    out, age 19 and score 110 are kept. *)
Example process_users_age_edge :
  snd (process_users initial_globals [] (one_file "edge.csv" age_edge_rows)
         "edge.csv" [])
  = Ok [row "Above18" "19" "50" "50"].
Proof. reflexivity. Qed.

Example process_users_score_edge :
  snd (process_users initial_globals [] (one_file "edge.csv" score_edge_rows)
         "edge.csv" [])
  = Ok [row "AboveScore" "25" "11" "0"].
Proof. reflexivity. Qed.




(** C5, on the code: the row with age [invalid_age] makes [process_users]
    raise [ValueError], the exception of [int()], and not
    [UserDataError]. *)
Theorem process_users_invalid_age_raises_ValueError :
  process_users initial_globals [] (one_file "invalid.csv" invalid_rows)
    "invalid.csv" []
  = ({| data := invalid_rows; THRESHOLD := 100 |}, [],
     Raise (ValueError "invalid_age")).
Proof. reflexivity. Qed.

(** No path through [process_users] raises [UserDataError]. *)
Lemma py_int_not_UserDataError (v : value) (msg : string) :
  py_int v <> Raise (UserDataError msg).
Proof.
  destruct v as [s | z |]; simpl; try discriminate.
  destruct (int_of_str s); discriminate.
Qed.

(** C8, counterexample: after a call that kept a row, a call on a file
    with a header and no rows returns that row again. *)
Lemma process_users_empty_file_returns_stale_rows :
  let alice := row "Alice Johnson" "25" "15" "30" in
  let files := fun p => if String.eqb p "users.csv" then Some [alice]
                        else if String.eqb p "empty.csv" then Some []
                        else None in
  process_users initial_globals [] files "users.csv" []
  = ({| data := [alice]; THRESHOLD := 100 |}, [], Ok [alice]) /\
  files "empty.csv" = Some [] /\
  process_users {| data := [alice]; THRESHOLD := 100 |} [] files
    "empty.csv" []
  = ({| data := [alice]; THRESHOLD := 100 |}, [], Ok [alice]).
Proof. repeat split. Qed.

(** C8, amended: when every row [data] holds once the rows of the file
    are appended (those of earlier calls and those of this one) is turned
    down by the loop without an exception, and the loop over [filters]
    raises nothing, the call returns the empty list. *)
Theorem process_users_returns_empty (g : globals) (h : heap)
    (files : csv_files) (file : string) (filters : list nat)
    (rows : list dict) :
  files file = Some rows ->
  (forall d, In d (data g ++ rows)%list -> keep (THRESHOLD g) d = Ok false) ->
  snd (apply_filters h filters) = Ok tt ->
  snd (process_users g h files file filters) = Ok [].
Proof.
  intros Hf Hall Hfl. unfold process_users. rewrite Hf. simpl.
  rewrite select_total.
  - destruct (apply_filters h filters) as [h1 [[] | e]]; simpl in *;
      [| discriminate].
    f_equal. induction (data g ++ rows)%list as [| d ds IH]; simpl;
      [reflexivity |].
    unfold kept at 1. rewrite (Hall d) by (left; reflexivity).
    apply IH. intros d' Hd'. apply Hall. now right.
  - apply Forall_forall. intros d Hd. exists false. now apply Hall.
Qed.

Lemma process_users_returns_empty_witness :
  snd (process_users {| data := []; THRESHOLD := 10000 |} []
         (one_file "users.csv" sample_rows) "users.csv" [])
  = Ok [].
Proof.
  apply (process_users_returns_empty {| data := []; THRESHOLD := 10000 |} []
           (one_file "users.csv" sample_rows) "users.csv" [] sample_rows).
  - reflexivity.
  - simpl. intros d Hd.
    repeat (destruct Hd as [<- | Hd]; [reflexivity |]). destruct Hd.
  - reflexivity.
Defined.

(** The first call of a run on a file with a header only. *)
Example process_users_first_call_empty_file :
  process_users initial_globals [] (one_file "empty.csv" []) "empty.csv" []
  = (initial_globals, [], Ok []).
Proof. reflexivity. Qed.

(** ** The skeleton *)

(** C10: [ScoringConfig(...)], [read_users_from_csv(...)] and
    [calculate_user_score(...)] raise [NotImplementedError] whatever their
    arguments, and so never return a value. *)
Theorem skeleton_raises_NotImplementedError :
  (forall pw vw,
     ScoringConfig_init pw vw
     = Raise (NotImplementedError "ScoringConfig.__init__ called")) /\
  (forall filepath,
     read_users_from_csv filepath
     = Raise (NotImplementedError "read_users_from_csv called")) /\
  (forall p v config,
     calculate_user_score p v config
     = Raise (NotImplementedError "calculate_user_score called")) /\
  (forall pw vw u, ScoringConfig_init pw vw <> Ok u) /\
  (forall filepath users, read_users_from_csv filepath <> Ok users) /\
  (forall p v config s, calculate_user_score p v config <> Ok s).
Proof. repeat split; discriminate. Qed.

(** C4, on the code: reading a path, here one that names no file, raises
    [NotImplementedError] and not [UserDataError] with reason "not found". *)
Theorem read_users_from_csv_missing_file :
  read_users_from_csv "does_not_exist.csv"
  = Raise (NotImplementedError "read_users_from_csv called") /\
  read_users_from_csv "does_not_exist.csv"
  <> Raise (UserDataError "not found").
Proof. split; [reflexivity | discriminate]. Qed.

(** ** Strings *)

Lemma append_assoc (a b c : string) : (a ++ b) ++ c = a ++ (b ++ c).
Proof. induction a as [| x a IH]; simpl; [reflexivity | now rewrite IH]. Qed.

Lemma append_nil_r (a : string) : a ++ "" = a.
Proof. induction a as [| x a IH]; simpl; [reflexivity | now rewrite IH]. Qed.


(** ** generate_report *)

Lemma write_users_Ok (users : list dict) :
  forall total out total' out',
    write_users users total out = (total', out', Ok tt) ->
    total' = total + Z.of_nat (List.length users) /\
    exists lines,
      Forall2 (fun u line => report_line u = Ok line) users lines /\
      out' = out ++ flat lines.
Proof.
  induction users as [| u users IH]; intros total out total' out' H.
  - simpl in H. injection H as <- <-. split; [simpl; lia |].
    exists []. split; [constructor | simpl; now rewrite append_nil_r].
  - cbn [write_users] in H.
    destruct (report_line u) as [line | e] eqn:Hline; [| discriminate].
    apply IH in H. destruct H as (-> & lines & Hlines & ->).
    split; [cbn [List.length]; lia |].
    exists (line :: lines). split; [now constructor |].
    simpl. now rewrite append_assoc.
Qed.

(** The whole text of a report that was written to the end: the user
    lines in the order of [users], an empty line, the count, the
    average. *)
Lemma generate_report_Ok (str_truediv : Z -> Z -> result string)
    (fs fs' : text_files) (users : list dict) (output : string) :
  generate_report str_truediv fs users output = (fs', Ok true) ->
  exists lines avg,
    Forall2 (fun u line => report_line u = Ok line) users lines /\
    average str_truediv users (Z.of_nat (List.length users)) = Ok avg /\
    fs' = write_file fs output
            (flat lines ++ nl ++ "Total users: "
             ++ str_of_Z (Z.of_nat (List.length users)) ++ nl
             ++ "Average score: " ++ avg ++ nl).
Proof.
  unfold generate_report. intros H.
  destruct (write_users users 0 "") as [[total out] [[] | e]] eqn:Hw;
    [| discriminate].
  apply write_users_Ok in Hw. destruct Hw as (Ht & lines & Hlines & ->).
  rewrite Z.add_0_l in Ht. subst total.
  destruct (average str_truediv users (Z.of_nat (List.length users)))
    as [avg | e] eqn:Havg; [| discriminate].
  injection H as <-. exists lines, avg.
  split; [assumption | split; [reflexivity |]].
  f_equal. change ("" ++ flat lines) with (flat lines).
  rewrite !append_assoc. simpl. rewrite !append_assoc. reflexivity.
Qed.

(** C6, on the code: for the two records of the test, which carry a
    score and neither purchases nor visits, [generate_report] truncates
    the file and raises [KeyError] before it writes a line. *)
Theorem generate_report_test_users_KeyError
    (str_truediv : Z -> Z -> result string) :
  fst (generate_report str_truediv no_files report_users "report.txt")
    "report.txt" = Some "" /\
  snd (generate_report str_truediv no_files report_users "report.txt")
  = Raise (KeyError "purchases").
Proof. split; reflexivity. Qed.

(** C7, counterexample: the report of an empty list has an average
    line, which reads 0. *)
Lemma generate_report_empty_has_average :
  (forall str_truediv,
     snd (generate_report str_truediv no_files [] "report.txt") = Ok true) /\
  (forall str_truediv,
     fst (generate_report str_truediv no_files [] "report.txt") "report.txt"
     = Some (nl ++ "Total users: 0" ++ nl ++ "Average score: 0" ++ nl)).
Proof. split; reflexivity. Qed.

(** C7, amended: every report written to the end closes with an average
    line, whatever the count; for an empty list the line reads
    [Average score: 0], otherwise it carries the text Python gives the
    quotient of the sum of the scores by the count. *)
Theorem generate_report_average_line
    (str_truediv : Z -> Z -> result string)
    (fs fs' : text_files) (users : list dict) (output : string) :
  generate_report str_truediv fs users output = (fs', Ok true) ->
  exists head avg,
    fs' output = Some (head ++ nl ++ "Average score: " ++ avg ++ nl) /\
    (users = [] -> avg = "0") /\
    (users <> [] ->
     exists l,
       scores users = Ok l /\
       str_truediv (py_sum l) (Z.of_nat (List.length users)) = Ok avg).
Proof.
  intros H. apply generate_report_Ok in H.
  destruct H as (lines & avg & _ & Havg & ->).
  exists (flat lines ++ nl ++ "Total users: "
          ++ str_of_Z (Z.of_nat (List.length users))), avg.
  split; [| split].
  - unfold write_file. rewrite String.eqb_refl. f_equal.
    now rewrite !append_assoc.
  - intros ->. simpl in Havg. now injection Havg as <-.
  - intros Hne. unfold average in Havg.
    destruct (Z.of_nat (List.length users) >? 0) eqn:Hpos.
    + destruct (scores users) as [l | e]; [| discriminate].
      exists l. auto.
    + destruct users as [| u users]; [congruence |].
      rewrite Z.gtb_ltb in Hpos. apply Z.ltb_ge in Hpos.
      cbn [List.length] in Hpos. lia.
Qed.

Lemma generate_report_average_line_witness :
  exists head avg,
    write_file no_files "report.txt"
      ("User: Alice Johnson, Score: 300" ++ nl ++ nl ++ "Total users: 1" ++ nl
       ++ "Average score: 300.0" ++ nl) "report.txt"
    = Some (head ++ nl ++ "Average score: " ++ avg ++ nl) /\
    exists l,
      scores [row "Alice Johnson" "25" "15" "30"] = Ok l /\
      Ok "300.0" = Ok avg.
Proof.
  destruct (generate_report_average_line (fun _ _ => Ok "300.0")
              no_files
              (write_file no_files "report.txt"
                 ("User: Alice Johnson, Score: 300" ++ nl ++ nl
                  ++ "Total users: 1" ++ nl ++ "Average score: 300.0" ++ nl))
              [row "Alice Johnson" "25" "15" "30"] "report.txt" eq_refl)
    as (head & avg & Hfile & _ & Hcons).
  exists head, avg. split; [exact Hfile |].
  apply Hcons. discriminate.
Defined.

(** ** json.dump and json.load *)





Lemma to_uint_not_D0 (p : positive) (d : Decimal.uint) :
  Pos.to_uint p <> Decimal.D0 d.
Proof.
  intros E.
  assert (Hn : Decimal.unorm (Pos.to_uint p) = Pos.to_uint p).
  { rewrite <- DecimalPos.Unsigned.to_of, DecimalPos.Unsigned.of_to.
    reflexivity. }
  rewrite E in Hn. unfold Decimal.unorm in Hn.
  destruct (Decimal.nzhead (Decimal.D0 d)) eqn:Hz;
    try (apply (DecimalFacts.nzhead_nonzero (Decimal.D0 d) d); congruence).
  apply (DecimalPos.Unsigned.to_uint_nonzero p). rewrite E. now rewrite <- Hn.
Qed.



Lemma string_of_uint_to_uint (p : positive) :
  NilZero.string_of_uint (Pos.to_uint p)
  = NilEmpty.string_of_uint (Pos.to_uint p).
Proof.
  pose proof (DecimalPos.Unsigned.to_uint_nonnil p) as Hnil.
  destruct (Pos.to_uint p); [congruence | reflexivity ..].
Qed.





Lemma within_limit (n : nat) :
  (n <= int_max_str_digits)%nat -> (int_max_str_digits <? n)%nat = false.
Proof. intros H. now apply Nat.ltb_ge. Qed.






Lemma join_cons (sep x y : string) (l : list string) :
  join sep (x :: y :: l) = x ++ sep ++ join sep (y :: l).
Proof. reflexivity. Qed.















(** ** export_json *)

Lemma str_int_renders (z : Z) :
  (num_digits z <= int_max_str_digits)%nat -> str_int z = Ok (str_of_Z z).
Proof. intros H. unfold str_int. now rewrite within_limit. Qed.

Lemma str_int_Ok (z : Z) (t : string) :
  str_int z = Ok t ->
  t = str_of_Z z /\ (num_digits z <= int_max_str_digits)%nat.
Proof.
  unfold str_int.
  destruct (int_max_str_digits <? num_digits z)%nat eqn:E; [discriminate |].
  intros [= <-]. split; [reflexivity | now apply Nat.ltb_ge].
Qed.

Lemma dump_value_renders (v : value) :
  renders v -> dump_value v = Ok (value_text v).
Proof.
  destruct v as [s | z |]; simpl; auto using str_int_renders.
Qed.

Lemma dump_value_Ok (v : value) (t : string) :
  dump_value v = Ok t -> t = value_text v /\ renders v.
Proof.
  destruct v as [s | z |]; simpl.
  - intros [= <-]. auto.
  - apply str_int_Ok.
  - intros [= <-]. auto.
Qed.

Lemma write_members_cons (first : bool) (k : string) (v : value) (d : dict)
    (out : string) :
  write_members first ((k, v) :: d) out
  = match dump_value v with
    | Ok text =>
        write_members false d
          ((out ++ (if first then "" else ", ") ++ quote k ++ ": ") ++ text)
    | Raise e => (out ++ (if first then "" else ", ") ++ quote k ++ ": ", Raise e)
    end.
Proof. reflexivity. Qed.

Lemma write_dicts_cons (first : bool) (u : dict) (users : list dict)
    (out : string) :
  write_dicts first (u :: users) out
  = match write_dict u (out ++ (if first then "" else ", ")) with
    | (out', Ok _) => write_dicts false users out'
    | (out', Raise e) => (out', Raise e)
    end.
Proof. reflexivity. Qed.

(** The writer, when every value can be rendered, writes the text. *)
Lemma write_members_text (d : dict) :
  forall kv first out,
    Forall (fun kv => renders (snd kv)) (kv :: d) ->
    write_members first (kv :: d) out
    = (out ++ (if first then "" else ", ")
       ++ join ", " (map member_text (kv :: d)), Ok tt).
Proof.
  induction d as [| kv' d IH]; intros [k v] first out Hfit;
    inversion Hfit as [| ? ? Hv Hfit']; subst; cbn [snd] in Hv;
    rewrite write_members_cons, (dump_value_renders v Hv).
  - cbn [write_members map join]. unfold member_text. cbn [fst snd].
    now rewrite !append_assoc.
  - rewrite (IH kv' false _ Hfit').
    cbn [map]. rewrite join_cons.
    set (tail := join ", " (member_text kv' :: map member_text d)).
    unfold member_text. cbn [fst snd]. now rewrite !append_assoc.
Qed.

Lemma write_dict_text (d : dict) (out : string) :
  Forall (fun kv => renders (snd kv)) d ->
  write_dict d out = (out ++ dict_text d, Ok tt).
Proof.
  intros Hfit. destruct d as [| kv d]; [reflexivity |].
  unfold write_dict. rewrite (write_members_text d kv true _ Hfit).
  unfold dict_text. cbn [String.append]. now rewrite ?append_assoc.
Qed.

Lemma write_dicts_text (users : list dict) :
  forall u first out,
    Forall (fun d => Forall (fun kv => renders (snd kv)) d) (u :: users) ->
    write_dicts first (u :: users) out
    = (out ++ (if first then "" else ", ")
       ++ join ", " (map dict_text (u :: users)), Ok tt).
Proof.
  induction users as [| u' users IH]; intros u first out Hfit;
    inversion Hfit as [| ? ? Hu Hfit']; subst;
    rewrite write_dicts_cons, (write_dict_text u _ Hu).
  - cbn [write_dicts map join]. now rewrite !append_assoc.
  - rewrite (IH u' false _ Hfit').
    cbn [map]. rewrite join_cons. now rewrite !append_assoc.
Qed.

Lemma json_dump_text (users : list dict) :
  Forall (fun d => Forall (fun kv => renders (snd kv)) d) users ->
  json_dump users = (json_text users, Ok tt).
Proof.
  intros Hfit. destruct users as [| u users]; [reflexivity |].
  unfold json_dump. rewrite (write_dicts_text users u true _ Hfit).
  unfold json_text. cbn [String.append]. now rewrite ?append_assoc.
Qed.







Example export_json_empty :
  fst (export_json no_files [] "empty.json") "empty.json" = Some "[]" /\
  json_load (fst (export_json no_files [] "empty.json")) "empty.json"
  = Some [].
Proof. split; reflexivity. Qed.

Example export_json_escapes :
  let odd := [(String dquote "k", VStr (String backslash nl)); ("n", VInt (-7));
              ("none", VNone)] in
  json_load (fst (export_json no_files [odd; []] "o.json")) "o.json"
  = Some [odd; []].
Proof. reflexivity. Qed.

(** * Further properties *)

(** ** calculate_score: errors and decimal text *)

(** X1: [calculate_score] raises exactly when a conversion fails, with
    the exception of [int(p)] if that one fails and otherwise with the
    exception of [int(v)]. *)
Theorem calculate_score_Raise (p v : value) (e : exn) :
  calculate_score p v = Raise e <->
  py_int p = Raise e \/ (exists a, py_int p = Ok a /\ py_int v = Raise e).
Proof.
  unfold calculate_score.
  destruct (py_int p) as [a | e1]; simpl.
  - destruct (py_int v) as [b | e2]; simpl; split.
    + discriminate.
    + intros [H | (a' & _ & H)]; discriminate.
    + intros H. right. exists a. auto.
    + intros [H | (a' & _ & H)]; [discriminate | assumption].
  - split; [auto |]. intros [H | (a' & H & _)]; [assumption | discriminate].
Qed.

Lemma int_digits_string_of_uint (d : Decimal.uint) :
  forall (a : positive) (n : nat),
    int_digits true (Zpos a) n (NilEmpty.string_of_uint d)
    = Some (Zpos (Pos.of_uint_acc d a), (n + Decimal.nb_digits d)%nat, "").
Proof.
  induction d as [| d IH | d IH | d IH | d IH | d IH | d IH | d IH | d IH
                  | d IH | d IH]; intros a n;
    cbn [NilEmpty.string_of_uint int_digits Pos.of_uint_acc Decimal.nb_digits];
    [now rewrite Nat.add_0_r | ..];
    match goal with
    | |- context [is_digit ?c] => change (is_digit c) with true
    end; cbv iota;
    match goal with
    | |- context [digit_val ?c] =>
        let n := eval vm_compute in (digit_val c) in
        change (digit_val c) with n
    end;
    match goal with
    | |- int_digits true ?x _ _ = Some (Z.pos (Pos.of_uint_acc _ ?y), _, _) =>
        replace x with (Z.pos y) by lia
    end;
    rewrite IH, Nat.add_succ_comm; reflexivity.
Qed.

Lemma int_magnitude_first_digit (c : ascii) (k : positive)
    (d : Decimal.uint) :
  is_digit c = true -> digit_val c = Zpos k ->
  (S (Decimal.nb_digits d) <= int_max_str_digits)%nat ->
  int_magnitude (String c (NilEmpty.string_of_uint d))
  = IntOk (Zpos (Pos.of_uint_acc d k)).
Proof.
  intros Hc Hk Hfit. unfold int_magnitude. cbn [int_digits].
  rewrite Hc, Hk. change (0 * 10 + Z.pos k) with (Z.pos k).
  rewrite int_digits_string_of_uint.
  change (1 + Decimal.nb_digits d)%nat with (S (Decimal.nb_digits d)).
  now rewrite within_limit.
Qed.

(** [int(str(z))] is [z], for [z] of at most 4300 digits. *)
Lemma int_of_str_str_of_Z (z : Z) :
  (num_digits z <= int_max_str_digits)%nat ->
  int_of_str (str_of_Z z) = IntOk z.
Proof.
  unfold str_of_Z, num_digits.
  destruct z as [| p | p]; cbn [Z.to_int NilZero.string_of_int Decimal.abs];
    intros Hfit.
  - reflexivity.
  - rewrite string_of_uint_to_uint.
    pose proof (DecimalPos.Unsigned.of_to p) as Hof.
    pose proof (to_uint_not_D0 p) as Hd0.
    destruct (Pos.to_uint p) as [| d | d | d | d | d | d | d | d | d | d];
      try discriminate; try (now destruct (Hd0 d));
      cbn [Pos.of_uint] in Hof; injection Hof as Hof;
      cbn [Decimal.nb_digits] in Hfit;
      cbn [NilEmpty.string_of_uint]; unfold int_of_str; cbn [lstrip];
      match goal with
      | |- context [is_space ?c] => change (is_space c) with false
      end; cbv iota beta;
      (erewrite int_magnitude_first_digit;
       [now rewrite Hof | reflexivity | reflexivity | assumption]).
  - rewrite string_of_uint_to_uint.
    pose proof (DecimalPos.Unsigned.of_to p) as Hof.
    pose proof (to_uint_not_D0 p) as Hd0.
    unfold int_of_str. cbn [lstrip].
    change (is_space "-") with false. cbv iota beta.
    destruct (Pos.to_uint p) as [| d | d | d | d | d | d | d | d | d | d];
      try discriminate; try (now destruct (Hd0 d));
      cbn [Pos.of_uint] in Hof; injection Hof as Hof;
      cbn [Decimal.nb_digits] in Hfit;
      cbn [NilEmpty.string_of_uint];
      (erewrite int_magnitude_first_digit;
       [cbn [int_negate]; now rewrite Hof
       | reflexivity | reflexivity | assumption]).
Qed.

(** X2: fields given as the decimal text of integers, as a CSV file holds
    them, score like the integers themselves: whenever [str(a)] and
    [str(b)] exist, that is for integers of at most 4300 digits,
    [calculate_score(str(a), str(b))] is [a * 10 + b * 5], for negative
    numbers too. *)
Theorem calculate_score_decimal_text (a b : Z) (sa sb : string) :
  str_int a = Ok sa -> str_int b = Ok sb ->
  calculate_score (VStr sa) (VStr sb) = Ok (a * 10 + b * 5).
Proof.
  intros Ha Hb.
  apply str_int_Ok in Ha. destruct Ha as [-> Ha].
  apply str_int_Ok in Hb. destruct Hb as [-> Hb].
  unfold calculate_score, py_int.
  now rewrite !int_of_str_str_of_Z by assumption.
Qed.

Lemma calculate_score_decimal_text_witness :
  calculate_score (VStr "15") (VStr "-30") = Ok (15 * 10 + -30 * 5).
Proof.
  apply (calculate_score_decimal_text 15 (-30) "15" "-30"); reflexivity.
Defined.

(** ** process_users: which rows raise, and what a failure leaves *)

(** X3: a row makes the loop raise only through its age, or, when its age
    is above 18, through its purchases or visits; the fields of a row aged
    18 or less are never read, so they may be missing or malformed. *)
Theorem keep_Raise (t : Z) (d : dict) (e : exn) :
  keep t d = Raise e <->
  (a <- getitem d "age" ;; py_int a) = Raise e \/
  (exists age,
     (a <- getitem d "age" ;; py_int a) = Ok age /\ age > 18 /\
     user_score d = Raise e).
Proof.
  unfold keep, user_score.
  destruct (getitem d "age") as [a | e0]; simpl;
    [destruct (py_int a) as [age | e1]; simpl |].
  - destruct (age >? 18) eqn:Hage.
    + apply Z.gtb_gt in Hage.
      destruct (getitem d "purchases") as [p | e2]; simpl;
        [destruct (getitem d "visits") as [v | e3]; simpl;
         [destruct (calculate_score p v) as [s | e4]; simpl |] |];
        (split;
         [ intros H; try discriminate; right; exists age;
           (split; [reflexivity | split; [exact Hage | congruence]])
         | intros [H | (age' & H1 & _ & H2)]; congruence ]).
    + rewrite Z.gtb_ltb in Hage. apply Z.ltb_ge in Hage. split.
      * discriminate.
      * intros [H | (age' & H1 & Hgt & _)]; [discriminate |].
        injection H1 as <-. lia.
  - split; [intros H; left; congruence |].
    intros [H | (age' & H1 & _)]; [congruence | discriminate].
  - split; [intros H; left; congruence |].
    intros [H | (age' & H1 & _)]; [congruence | discriminate].
Qed.

Lemma select_Raise (t : Z) (pre post : list dict) (d : dict) (e : exn) :
  Forall (fun x => exists b, keep t x = Ok b) pre ->
  keep t d = Raise e ->
  forall acc, select t (pre ++ d :: post)%list acc = Raise e.
Proof.
  intros Hpre Hd. induction Hpre as [| x pre [b Hb] _ IH]; intros acc; simpl.
  - now rewrite Hd.
  - rewrite Hb. simpl. apply IH.
Qed.

(** X4: the call fails fast.  At the first row of [data] (earlier rows
    included) that raises, the call raises that exception; the rows of
    the file are in [data] all the same, and no filter has been
    touched. *)
Theorem process_users_fails_at_first_bad_row (g : globals) (h : heap)
    (files : csv_files) (file : string) (filters : list nat)
    (rows pre post : list dict) (d : dict) (e : exn) :
  files file = Some rows ->
  (data g ++ rows)%list = (pre ++ d :: post)%list ->
  Forall (fun x => exists b, keep (THRESHOLD g) x = Ok b) pre ->
  keep (THRESHOLD g) d = Raise e ->
  process_users g h files file filters
  = ({| data := (data g ++ rows)%list; THRESHOLD := THRESHOLD g |}, h,
     Raise e).
Proof.
  intros Hf Hsplit Hpre Hd. unfold process_users. rewrite Hf. simpl.
  rewrite Hsplit.
  now rewrite (select_Raise _ pre post d e Hpre Hd).
Qed.

Lemma process_users_fails_at_first_bad_row_witness :
  process_users initial_globals [[("count", VInt 4)]]
    (one_file "users.csv"
       [row "Ann" "30" "20" "1"; row "Joe" "x" "1" "1"; row "Sue" "y" "1" "1"])
    "users.csv" [0%nat]
  = ({| data := [row "Ann" "30" "20" "1"; row "Joe" "x" "1" "1";
                 row "Sue" "y" "1" "1"];
        THRESHOLD := 100 |},
     [[("count", VInt 4)]], Raise (ValueError "x")).
Proof.
  apply (process_users_fails_at_first_bad_row initial_globals
           [[("count", VInt 4)]] _ "users.csv" [0%nat]
           [row "Ann" "30" "20" "1"; row "Joe" "x" "1" "1";
            row "Sue" "y" "1" "1"]
           [row "Ann" "30" "20" "1"] [row "Sue" "y" "1" "1"]
           (row "Joe" "x" "1" "1") (ValueError "x")).
  - reflexivity.
  - reflexivity.
  - constructor; [exists true; reflexivity | constructor].
  - reflexivity.
Defined.

(** X5: a bad row stays.  When [data] holds a row on which the loop
    raises, as it does after a call that failed on that row, a call on
    any file that exists and is read to its end raises that exception,
    whatever the file and the filters; the row is in [data] afterwards as
    before, so the call after it fails in the same way, and so on. *)
Theorem process_users_failure_persists (g : globals) (h : heap)
    (files : csv_files) (file : string) (filters : list nat)
    (rows pre post : list dict) (d : dict) (e : exn) :
  data g = (pre ++ d :: post)%list ->
  Forall (fun x => exists b, keep (THRESHOLD g) x = Ok b) pre ->
  keep (THRESHOLD g) d = Raise e ->
  files file = Some rows ->
  process_users g h files file filters
  = ({| data := (pre ++ d :: (post ++ rows))%list;
        THRESHOLD := THRESHOLD g |}, h, Raise e).
Proof.
  intros Hdata Hpre Hd Hf. unfold process_users. rewrite Hf, Hdata. simpl.
  rewrite <- List.app_assoc. cbn [app].
  now rewrite (select_Raise _ pre (post ++ rows) d e Hpre Hd).
Qed.

Lemma process_users_failure_persists_witness :
  process_users {| data := invalid_rows; THRESHOLD := 100 |}
    [[("count", VInt 4)]] (one_file "users.csv" sample_rows) "users.csv"
    [0%nat]
  = ({| data := ([] ++ row "John Doe" "invalid_age" "10" "20"
                 :: ([] ++ sample_rows))%list;
        THRESHOLD := 100 |},
     [[("count", VInt 4)]], Raise (ValueError "invalid_age")).
Proof.
  apply (process_users_failure_persists
           {| data := invalid_rows; THRESHOLD := 100 |}
           [[("count", VInt 4)]] (one_file "users.csv" sample_rows)
           "users.csv" [0%nat] sample_rows [] []
           (row "John Doe" "invalid_age" "10" "20")
           (ValueError "invalid_age")).
  - reflexivity.
  - constructor.
  - reflexivity.
  - reflexivity.
Defined.

(** X6: every dict of the returned list, a row of an earlier call as much
    as a row of the file, has an age above 18 and a score above
    [THRESHOLD]. *)
Theorem process_users_results_sound (g g' : globals) (h h' : heap)
    (files : csv_files) (file : string) (filters : list nat)
    (rows results : list dict) :
  files file = Some rows ->
  process_users g h files file filters = (g', h', Ok results) ->
  forall d, In d results ->
    exists age score,
      (a <- getitem d "age" ;; py_int a) = Ok age /\ age > 18 /\
      user_score d = Ok score /\ score > THRESHOLD g.
Proof.
  intros Hf H d Hd.
  destruct (process_users_Ok _ _ _ _ _ _ _ _ _ Hf H) as (_ & Hsel & _).
  apply select_Ok in Hsel. destruct Hsel as [-> _]. simpl in Hd.
  apply filter_In in Hd. destruct Hd as [_ Hk].
  apply keep_true. unfold kept in Hk.
  destruct (keep (THRESHOLD g) d) as [[|] | e]; [reflexivity | discriminate ..].
Qed.

Lemma process_users_results_sound_witness :
  exists age score,
    (a <- getitem (row "Alice Johnson" "25" "15" "30") "age" ;; py_int a)
    = Ok age /\
    age > 18 /\
    user_score (row "Alice Johnson" "25" "15" "30") = Ok score /\
    score > THRESHOLD {| data := [row "Alice Johnson" "25" "15" "30"];
                         THRESHOLD := 100 |}.
Proof.
  apply (process_users_results_sound
           {| data := [row "Alice Johnson" "25" "15" "30"]; THRESHOLD := 100 |}
           {| data := [row "Alice Johnson" "25" "15" "30";
                       row "Exactly18" "18" "50" "50";
                       row "Above18" "19" "50" "50"];
              THRESHOLD := 100 |} [] []
           (one_file "edge.csv" age_edge_rows) "edge.csv" []
           age_edge_rows
           [row "Alice Johnson" "25" "15" "30"; row "Above18" "19" "50" "50"]
           eq_refl eq_refl).
  simpl. auto.
Defined.

Lemma filter_copies (f : dict -> bool) (n : nat) (rows : list dict) :
  filter f (copies n rows) = copies n (filter f rows).
Proof.
  induction n as [| n IH]; simpl; [reflexivity |].
  now rewrite filter_app, IH.
Qed.

Lemma Forall_copies (P : dict -> Prop) (n : nat) (rows : list dict) :
  Forall P rows -> Forall P (copies n rows).
Proof.
  intros H. induction n as [| n IH]; simpl; [constructor |].
  apply Forall_app. auto.
Qed.

(** X7: calls add up.  When [data] holds [n] copies of the rows of a file,
    as it does after [n] calls on that file in a fresh interpreter, the
    next call on it returns every kept row [n + 1] times. *)
Theorem process_users_repeated (g : globals) (h : heap) (files : csv_files)
    (file : string) (rows : list dict) (n : nat) :
  files file = Some rows ->
  Forall (fun d => exists b, keep (THRESHOLD g) d = Ok b) rows ->
  data g = copies n rows ->
  process_users g h files file []
  = ({| data := copies (S n) rows; THRESHOLD := THRESHOLD g |}, h,
     Ok (copies (S n) (filter (kept (THRESHOLD g)) rows))).
Proof.
  intros Hf Hrows Hdata. unfold process_users. rewrite Hf, Hdata. simpl.
  change (copies n rows ++ rows)%list with (copies (S n) rows).
  rewrite select_total by now apply Forall_copies.
  simpl. now rewrite filter_app, filter_copies.
Qed.

Lemma process_users_repeated_witness :
  process_users {| data := (sample_rows ++ sample_rows)%list; THRESHOLD := 100 |}
    [] (one_file "users.csv" sample_rows) "users.csv" []
  = ({| data := copies 3 sample_rows; THRESHOLD := 100 |}, [],
     Ok (copies 3 (filter (kept 100) sample_rows))).
Proof.
  apply (process_users_repeated
           {| data := (sample_rows ++ sample_rows)%list; THRESHOLD := 100 |}
           [] (one_file "users.csv" sample_rows) "users.csv" sample_rows 2).
  - reflexivity.
  - repeat constructor; eexists; reflexivity.
  - reflexivity.
Defined.

(** ** The filter objects *)

Lemma heap_set_length (h : heap) (r : nat) (d : dict) :
  List.length (heap_set h r d) = List.length h.
Proof.
  revert r. induction h as [| x h IH]; intros [| r]; simpl; auto.
Qed.

Lemma Forall_heap_set (P : dict -> Prop) (h : heap) (r : nat) (d : dict) :
  Forall P h -> P d -> Forall P (heap_set h r d).
Proof.
  intros Hh Hd. revert r.
  induction Hh as [| x h Hx Hh IH]; intros [| r]; simpl; auto.
Qed.

Lemma keys_setitem_In (d : dict) (k x : string) (v : value) :
  In x (keys (setitem d k v)) -> x = k \/ In x (keys d).
Proof.
  induction d as [| [k' v'] d IH]; simpl.
  - intros [<- | []]. now left.
  - destruct (String.eqb k' k); simpl; intros [<- | H]; auto.
    destruct (IH H); auto.
Qed.

Lemma NoDup_setitem (d : dict) (k : string) (v : value) :
  NoDup (keys d) -> NoDup (keys (setitem d k v)).
Proof.
  induction d as [| [k' v'] d IH]; simpl; intros Hnd.
  - repeat constructor. intros [].
  - inversion Hnd as [| ? ? Hnotin Hnd']; subst.
    destruct (String.eqb_spec k' k) as [-> | Hne]; simpl.
    + now constructor.
    + constructor; [| now apply IH].
      intros Hin. apply keys_setitem_In in Hin.
      destruct Hin as [-> | Hin]; [now apply Hne | now apply Hnotin].
Qed.

Lemma apply_filters_frame (filters : list nat) :
  forall h h' r,
    apply_filters h filters = (h', r) ->
    List.length h' = List.length h /\
    (forall i, ~ In i filters -> nth_error h' i = nth_error h i) /\
    (Forall (fun d => NoDup (keys d)) h ->
     Forall (fun d => NoDup (keys d)) h').
Proof.
  induction filters as [| r0 fl IH]; intros h h' r H; simpl in H.
  - injection H as <- <-. auto.
  - destruct (nth_error h r0) as [f0 |] eqn:Hr0;
      [| injection H as <- <-; auto].
    destruct (bump f0) as [f0' |] eqn:Hb; [| injection H as <- <-; auto].
    destruct (bump_Ok _ _ Hb) as (n0 & _ & ->).
    apply IH in H. destruct H as (Hlen & Hframe & Hwf).
    split; [| split].
    + now rewrite Hlen, heap_set_length.
    + intros i Hi. rewrite Hframe by (intros Hin; apply Hi; now right).
      apply nth_error_heap_set_neq. intros ->. apply Hi. now left.
    + intros Hh. apply Hwf. apply Forall_heap_set; [assumption |].
      apply NoDup_setitem.
      apply nth_error_In in Hr0.
      now apply (proj1 (Forall_forall _ _) Hh).
Qed.

(** X8: whatever the outcome of a call, a list or an exception, the
    caller's objects are as many as before, the ones [filters] does not
    list are what they were, and a dict stays a dict: no key occurs
    twice. *)
Theorem process_users_heap_frame (g g' : globals) (h h' : heap)
    (files : csv_files) (file : string) (filters : list nat)
    (r : result (list dict)) :
  process_users g h files file filters = (g', h', r) ->
  List.length h' = List.length h /\
  (forall i, ~ In i filters -> nth_error h' i = nth_error h i) /\
  (Forall (fun d => NoDup (keys d)) h ->
   Forall (fun d => NoDup (keys d)) h').
Proof.
  unfold process_users. intros H.
  destruct (files file) as [rows |]; [| injection H as <- <- <-; auto].
  simpl in H.
  destruct (select (THRESHOLD g) (data g ++ rows)%list []) as [res | e];
    [| injection H as <- <- <-; auto].
  destruct (apply_filters h filters) as [h1 r1] eqn:Hfl.
  apply apply_filters_frame in Hfl.
  destruct r1 as [[] | e]; injection H as <- <- <-; assumption.
Qed.

Lemma process_users_heap_frame_witness :
  List.length [[("count", VInt 1)]; [("count", VStr "many")]; [("kind", VNone)]]
  = 3%nat /\
  nth_error [[("count", VInt 1)]; [("count", VStr "many")]; [("kind", VNone)]]
    2
  = Some [("kind", VNone)].
Proof.
  destruct (process_users_heap_frame initial_globals
              {| data := sample_rows; THRESHOLD := 100 |}
              [[("count", VInt 0)]; [("count", VStr "many")]; [("kind", VNone)]]
              [[("count", VInt 1)]; [("count", VStr "many")]; [("kind", VNone)]]
              (one_file "users.csv" sample_rows) "users.csv" [0%nat; 1%nat]
              (Raise TypeError) eq_refl)
    as (Hlen & Hframe & _).
  split; [exact Hlen |].
  apply (Hframe 2%nat). simpl. intros [H | [H | []]]; discriminate.
Defined.

(** ** generate_report: what reaches the file *)

Lemma write_users_lines (users : list dict) (lines : list string) :
  Forall2 (fun u line => report_line u = Ok line) users lines ->
  forall total out,
    write_users users total out
    = (total + Z.of_nat (List.length users), out ++ flat lines, Ok tt).
Proof.
  induction 1 as [| u line users lines Hline _ IH]; intros total out.
  - simpl. now rewrite Z.add_0_r, append_nil_r.
  - cbn [write_users]. rewrite Hline, IH. cbn [flat fold_right List.length].
    rewrite append_assoc. do 2 f_equal. lia.
Qed.

Lemma write_users_Raise (users : list dict) :
  forall total out total' out' e,
    write_users users total out = (total', out', Raise e) ->
    exists pre u post lines,
      users = (pre ++ u :: post)%list /\
      Forall2 (fun u line => report_line u = Ok line) pre lines /\
      report_line u = Raise e /\ out' = out ++ flat lines.
Proof.
  induction users as [| x users IH]; intros total out total' out' e H.
  - discriminate.
  - cbn [write_users] in H.
    destruct (report_line x) as [line | e1] eqn:Hx.
    + apply IH in H.
      destruct H as (pre & u & post & lines & -> & Hpre & Hu & ->).
      exists (x :: pre), u, post, (line :: lines).
      repeat split; auto. cbn [flat fold_right]. now rewrite append_assoc.
    + injection H as _ <- <-. exists [], x, users, [].
      repeat split; auto. simpl. now rewrite append_nil_r.
Qed.

Lemma report_line_score (u : dict) (line : string) :
  report_line u = Ok line -> exists s, user_score u = Ok s.
Proof.
  unfold report_line. intros H. bind_inv H. eauto.
Qed.

(** The list comprehension under the average cannot raise once the loop
    has gone through. *)
Lemma scores_of_lines (users : list dict) (lines : list string) :
  Forall2 (fun u line => report_line u = Ok line) users lines ->
  exists l, scores users = Ok l.
Proof.
  induction 1 as [| u line users lines Hline _ [l IH]]; simpl.
  - eauto.
  - destruct (report_line_score _ _ Hline) as [s ->]. rewrite IH. simpl.
    eauto.
Qed.

(** X9: when every record gives a line and the quotient has a text, the
    file holds exactly the lines of the records in the order of the input,
    an empty line, the number of records and the average, and the call
    returns [True]. *)
Theorem generate_report_writes (str_truediv : Z -> Z -> result string)
    (fs : text_files) (users : list dict) (output : string)
    (lines : list string) (avg : string) :
  Forall2 (fun u line => report_line u = Ok line) users lines ->
  average str_truediv users (Z.of_nat (List.length users)) = Ok avg ->
  generate_report str_truediv fs users output
  = (write_file fs output
       (flat lines ++ nl ++ "Total users: "
        ++ str_of_Z (Z.of_nat (List.length users)) ++ nl
        ++ "Average score: " ++ avg ++ nl),
     Ok true).
Proof.
  intros Hlines Havg. unfold generate_report.
  rewrite (write_users_lines _ _ Hlines). rewrite Z.add_0_l, Havg.
  change ("" ++ flat lines) with (flat lines).
  do 2 f_equal. rewrite !append_assoc. simpl. now rewrite ?append_assoc.
Qed.

Lemma generate_report_writes_witness :
  generate_report (fun _ _ => Ok "237.5") no_files
    [row "Alice Johnson" "25" "15" "30"; row "David Brown" "42" "8" "19"]
    "report.txt"
  = (write_file no_files "report.txt"
       (flat ["User: Alice Johnson, Score: 300" ++ nl;
              "User: David Brown, Score: 175" ++ nl]
        ++ nl ++ "Total users: " ++ str_of_Z 2 ++ nl
        ++ "Average score: " ++ "237.5" ++ nl),
     Ok true).
Proof.
  apply (generate_report_writes (fun _ _ => Ok "237.5") no_files
           [row "Alice Johnson" "25" "15" "30"; row "David Brown" "42" "8" "19"]
           "report.txt"
           ["User: Alice Johnson, Score: 300" ++ nl;
            "User: David Brown, Score: 175" ++ nl] "237.5").
  - repeat constructor.
  - reflexivity.
Defined.

Lemma generate_report_Raise_inv (str_truediv : Z -> Z -> result string)
    (fs fs' : text_files) (users : list dict) (output : string) (e : exn) :
  generate_report str_truediv fs users output = (fs', Raise e) ->
  (exists u, In u users /\ report_line u = Raise e) \/
  (users <> [] /\
   exists l,
     scores users = Ok l /\
     str_truediv (py_sum l) (Z.of_nat (List.length users)) = Raise e).
Proof.
  unfold generate_report. intros H.
  destruct (write_users users 0 "") as [[total out] [[] | e1]] eqn:Hw.
  - right. apply write_users_Ok in Hw.
    destruct Hw as (Ht & lines & Hlines & ->). rewrite Z.add_0_l in Ht.
    subst total. destruct (scores_of_lines _ _ Hlines) as [l Hl].
    unfold average in H. rewrite Hl in H. simpl in H.
    destruct (Z.of_nat (List.length users) >? 0) eqn:Hpos.
    + destruct (str_truediv (py_sum l) (Z.of_nat (List.length users)))
        as [avg | e2] eqn:Hdiv; [discriminate |].
      injection H as _ <-. split; [| eauto].
      intros ->. discriminate.
    + discriminate.
  - left. injection H as _ <-. apply write_users_Raise in Hw.
    destruct Hw as (pre & u & post & lines & -> & _ & Hu & _).
    exists u. split; [| assumption]. apply in_or_app. right. now left.
Qed.

(** X11: once the output file is open, an exception of
    [generate_report] is the exception of a record in the loop (a missing
    key, a failed conversion, a name or a score of more than 4300 digits)
    or the exception of the division; computing the scores a second time
    for the average adds no failure of its own. *)
Theorem generate_report_Raise (str_truediv : Z -> Z -> result string)
    (fs fs' : text_files) (users : list dict) (output : string) (e : exn) :
  generate_report str_truediv fs users output = (fs', Raise e) ->
  (exists u, In u users /\ report_line u = Raise e) \/
  (users <> [] /\
   exists l,
     scores users = Ok l /\
     str_truediv (py_sum l) (Z.of_nat (List.length users)) = Raise e).
Proof. apply generate_report_Raise_inv. Qed.

Lemma generate_report_Raise_witness :
  (exists u,
     In u report_users /\ report_line u = Raise (KeyError "purchases")) \/
  (report_users <> [] /\
   exists l,
     scores report_users = Ok l /\
     (fun _ _ : Z => @Ok string "0.0") (py_sum l)
       (Z.of_nat (List.length report_users))
     = Raise (KeyError "purchases")).
Proof.
  apply (generate_report_Raise (fun _ _ => Ok "0.0") no_files
           (write_file no_files "report.txt" "") report_users "report.txt"
           (KeyError "purchases") eq_refl).
Defined.

(** X12: the call writes to one path.  Whatever the outcome, a list
    written to the end or an exception on the way, every path other than
    [output] holds what it held. *)
Theorem generate_report_frame (str_truediv : Z -> Z -> result string)
    (fs : text_files) (users : list dict) (output p : string) :
  p <> output ->
  fst (generate_report str_truediv fs users output) p = fs p.
Proof.
  intros Hp. unfold generate_report.
  destruct (write_users users 0 "") as [[total out] [[] | e]];
    [destruct (average str_truediv users total) as [avg | e] |];
    cbn [fst]; unfold write_file;
    destruct (String.eqb_spec p output); congruence.
Qed.

Lemma generate_report_frame_witness :
  fst (generate_report (fun _ _ => Ok "0.0")
         (write_file no_files "output.json" "[]") report_users "report.txt")
    "output.json"
  = write_file no_files "output.json" "[]" "output.json".
Proof.
  apply (generate_report_frame (fun _ _ => Ok "0.0")
           (write_file no_files "output.json" "[]") report_users
           "report.txt" "output.json").
  discriminate.
Defined.

(** ** export_json: the text of the file *)

Lemma all_printable_app (a b : string) :
  all_printable (a ++ b) = all_printable a && all_printable b.
Proof.
  induction a as [| c a IH]; simpl; [reflexivity |].
  now rewrite IH, andb_assoc.
Qed.

Lemma escape_char_printable (c : ascii) : all_printable (escape_char c) = true.
Proof. destruct c as [[] [] [] [] [] [] [] []]; reflexivity. Qed.

Lemma quote_printable (s : string) : all_printable (quote s) = true.
Proof.
  unfold quote. cbn [all_printable]. rewrite all_printable_app.
  replace (all_printable (escape s)) with true; [reflexivity |].
  induction s as [| c s IH]; simpl; [reflexivity |].
  now rewrite all_printable_app, escape_char_printable, <- IH.
Qed.

Lemma string_of_uint_printable (d : Decimal.uint) :
  all_printable (NilEmpty.string_of_uint d) = true.
Proof.
  induction d; simpl; auto.
Qed.

Lemma str_of_Z_printable (z : Z) : all_printable (str_of_Z z) = true.
Proof.
  unfold str_of_Z.
  destruct z as [| p | p]; cbn [Z.to_int NilZero.string_of_int];
    [reflexivity | |]; rewrite string_of_uint_to_uint;
    [| cbn [all_printable]]; now rewrite string_of_uint_printable.
Qed.

Lemma join_printable (sep : string) (l : list string) :
  all_printable sep = true ->
  Forall (fun s => all_printable s = true) l ->
  all_printable (join sep l) = true.
Proof.
  intros Hsep. induction 1 as [| x l Hx Hl IH]; [reflexivity |].
  destruct l as [| y l]; [exact Hx |].
  rewrite join_cons, !all_printable_app, Hx, Hsep, IH. reflexivity.
Qed.

Lemma value_text_printable (v : value) : all_printable (value_text v) = true.
Proof.
  destruct v as [s | z |]; cbn [value_text].
  - apply quote_printable.
  - apply str_of_Z_printable.
  - reflexivity.
Qed.

Lemma write_members_printable (d : dict) :
  forall first out,
    all_printable out = true ->
    all_printable (fst (write_members first d out)) = true.
Proof.
  induction d as [| [k v] d IH]; intros first out Hout; [exact Hout |].
  rewrite write_members_cons.
  assert (Hout1 : all_printable
                    (out ++ (if first then "" else ", ") ++ quote k ++ ": ")
                  = true).
  { rewrite !all_printable_app, Hout, quote_printable.
    now destruct first. }
  destruct (dump_value v) as [text | e] eqn:Hv; [| exact Hout1].
  apply IH. apply dump_value_Ok in Hv. destruct Hv as [-> _].
  now rewrite all_printable_app, Hout1, value_text_printable.
Qed.

Lemma write_dict_printable (d : dict) (out : string) :
  all_printable out = true ->
  all_printable (fst (write_dict d out)) = true.
Proof.
  intros Hout. destruct d as [| kv d].
  - cbn [write_dict fst]. now rewrite all_printable_app, Hout.
  - unfold write_dict.
    pose proof (write_members_printable (kv :: d) true (out ++ "{")) as H.
    destruct (write_members true (kv :: d) (out ++ "{")) as [out' [[] | e]];
      cbn [fst] in *; rewrite ?all_printable_app, H; try reflexivity;
      now rewrite all_printable_app, Hout.
Qed.

Lemma write_dicts_printable (users : list dict) :
  forall first out,
    all_printable out = true ->
    all_printable (fst (write_dicts first users out)) = true.
Proof.
  induction users as [| u users IH]; intros first out Hout; [exact Hout |].
  rewrite write_dicts_cons.
  pose proof (write_dict_printable u (out ++ (if first then "" else ", ")))
    as H.
  destruct (write_dict u (out ++ (if first then "" else ", ")))
    as [out' [[] | e]]; cbn [fst] in H.
  - apply IH. apply H. rewrite all_printable_app, Hout. now destruct first.
  - cbn [fst]. apply H. rewrite all_printable_app, Hout. now destruct first.
Qed.

(** X13: the exported file is plain ASCII on one line: every character
    of the text lies between the space and the tilde, whatever characters
    the keys and the values hold, and also when the export stops on an
    integer it cannot render. *)
Theorem json_dumps_printable (fs : text_files) (users : list dict)
    (file : string) :
  exists text,
    fst (export_json fs users file) file = Some text /\
    all_printable text = true.
Proof.
  exists (fst (json_dump users)). split.
  - unfold export_json. destruct (json_dump users) as [text r].
    cbn [fst]. unfold write_file. now rewrite String.eqb_refl.
  - destruct users as [| u users]; [reflexivity |].
    unfold json_dump.
    pose proof (write_dicts_printable (u :: users) true "[" eq_refl) as H.
    destruct (write_dicts true (u :: users) "[") as [out [[] | e]];
      cbn [fst] in *; [| exact H].
    now rewrite all_printable_app, H.
Qed.

(** ** main *)

Lemma generate_report_other_paths (str_truediv : Z -> Z -> result string)
    (fs : text_files) (users : list dict) (output p : string) :
  p <> output -> fst (generate_report str_truediv fs users output) p = fs p.
Proof.
  intros Hp. unfold generate_report.
  destruct (write_users users 0 "") as [[total out] [[] | e]];
    [destruct (average str_truediv users total) as [avg | e] |];
    cbn [fst]; unfold write_file;
    destruct (String.eqb_spec p output); congruence.
Qed.




Lemma filter_renders (f : dict -> bool) (l : list dict) :
  Forall (fun d => Forall (fun kv => renders (snd kv)) d) l ->
  Forall (fun d => Forall (fun kv => renders (snd kv)) d) (filter f l).
Proof.
  intros H. apply Forall_forall. intros d Hd. apply filter_In in Hd.
  now apply (proj1 (Forall_forall _ _) H).
Qed.

(** X16: when the script raises, it has printed nothing; and, the rows
    of [data] holding text as [csv.DictReader] makes them (or any value
    that can be rendered), it has not touched [output.json]: the export
    is reached only after a complete report.  When [users.csv] is missing
    the exception is [FileNotFoundError] and nothing at all has
    changed. *)
Theorem main_failure (str_truediv : Z -> Z -> result string)
    (g g' : globals) (files : csv_files) (fs fs' : text_files)
    (stdout stdout' : string) (e : exn) :
  main str_truediv g files fs stdout = (g', fs', stdout', Raise e) ->
  stdout' = stdout /\
  (Forall (fun d => Forall (fun kv => renders (snd kv)) d) (data g') ->
   fs' "output.json" = fs "output.json") /\
  (files "users.csv" = None ->
   g' = g /\ fs' = fs /\ e = FileNotFoundError "users.csv").
Proof.
  unfold main. intros H.
  destruct (files "users.csv") as [rows |] eqn:Hf.
  - destruct (process_users g [] files "users.csv" [])
      as [[g1 h1] [users | e1]] eqn:Hp.
    + destruct (process_users_Ok _ _ _ _ _ _ _ _ _ Hf Hp) as (-> & Hsel & _).
      apply select_Ok in Hsel. destruct Hsel as [Husers _]. simpl in Husers.
      pose proof (generate_report_other_paths str_truediv fs users
                    "report.txt" "output.json") as Hframe.
      destruct (generate_report str_truediv fs users "report.txt")
        as [fs1 [b | e2]].
      * unfold export_json in H.
        destruct (json_dump users) as [text [[] | e3]] eqn:Hd;
          [discriminate |].
        injection H as <- <- <- <-.
        split; [reflexivity | split; [| discriminate]].
        intros Hrender. cbn [data] in Hrender.
        rewrite json_dump_text in Hd; [discriminate |].
        subst users. now apply filter_renders.
      * injection H as <- <- <- <-. cbn [fst] in Hframe.
        split; [reflexivity | split; [| discriminate]].
        intros _. apply Hframe. discriminate.
    + injection H as <- <- <- <-.
      split; [reflexivity | split; [reflexivity | discriminate]].
  - unfold process_users in H. rewrite Hf in H.
    injection H as <- <- <- <-. repeat split; reflexivity.
Qed.

Lemma main_failure_witness :
  "" = "" /\
  write_file no_files "report.txt" "" "output.json" = no_files "output.json".
Proof.
  destruct (main_failure (fun _ _ => Ok "0.0") initial_globals
              {| data := [[("age", VStr "40"); ("purchases", VStr "20");
                           ("visits", VStr "0")]];
                 THRESHOLD := 100 |}
              (one_file "users.csv"
                 [[("age", VStr "40"); ("purchases", VStr "20");
                   ("visits", VStr "0")]])
              no_files (write_file no_files "report.txt" "") "" ""
              (KeyError "name") eq_refl)
    as (Hout & Hjson & _).
  split; [exact Hout |].
  apply Hjson. repeat constructor.
Defined.



(** ** process_users, then generate_report *)

(** X18: a report of what [process_users] returned never fails on
    purchases or visits, which the selection has already converted: it
    can only raise [KeyError] for a row without a name, [ValueError] for
    a name or a score of more than 4300 digits, or what the division
    raises. *)
Theorem report_of_process_users (str_truediv : Z -> Z -> result string)
    (g g' : globals) (h h' : heap) (files : csv_files) (file : string)
    (filters : list nat) (rows results : list dict)
    (fs fs' : text_files) (output : string) (e : exn) :
  files file = Some rows ->
  process_users g h files file filters = (g', h', Ok results) ->
  generate_report str_truediv fs results output = (fs', Raise e) ->
  e = KeyError "name" \/ e = ValueError_limit \/
  exists a b, str_truediv a b = Raise e.
Proof.
  intros Hf Hp Hr.
  destruct (process_users_Ok _ _ _ _ _ _ _ _ _ Hf Hp) as (_ & Hsel & _).
  apply select_Ok in Hsel. destruct Hsel as [-> _]. simpl in Hr.
  apply generate_report_Raise_inv in Hr.
  destruct Hr as [(u & Hu & Hline) | (_ & l & _ & Hdiv)]; [| eauto].
  apply filter_In in Hu. destruct Hu as [_ Hk].
  assert (Hkeep : keep (THRESHOLD g) u = Ok true).
  { unfold kept in Hk.
    destruct (keep (THRESHOLD g) u) as [[|] | e1];
      [reflexivity | discriminate ..]. }
  apply keep_true in Hkeep. destruct Hkeep as (age & s & _ & _ & Hs & _).
  unfold report_line in Hline. rewrite Hs in Hline. simpl in Hline.
  unfold getitem in Hline.
  destruct (dict_get u "name") as [name |]; simpl in Hline;
    [| left; congruence].
  right. left.
  assert (Hlimit : forall z (t : string -> result string),
             bind (str_int z) t = Raise e ->
             e = ValueError_limit \/
             exists x, str_int z = Ok x /\ t x = Raise e).
  { intros z t. unfold str_int.
    destruct (int_max_str_digits <? num_digits z)%nat; simpl.
    - intros [= <-]. now left.
    - intros Ht. right. eauto. }
  destruct name as [n | z |]; simpl in Hline.
  - apply Hlimit in Hline. destruct Hline as [-> | (x & _ & Hx)];
      [reflexivity | discriminate].
  - apply Hlimit in Hline. destruct Hline as [-> | (x & _ & Hx)];
      [reflexivity |].
    apply Hlimit in Hx. destruct Hx as [-> | (y & _ & Hy)];
      [reflexivity | discriminate].
  - apply Hlimit in Hline. destruct Hline as [-> | (x & _ & Hx)];
      [reflexivity | discriminate].
Qed.

Lemma report_of_process_users_witness :
  KeyError "name" = KeyError "name" \/ KeyError "name" = ValueError_limit \/
  exists a b : Z, (fun _ _ : Z => @Ok string "0.0") a b = Raise (KeyError "name").
Proof.
  apply (report_of_process_users (fun _ _ => Ok "0.0") initial_globals
           {| data := [[("age", VStr "40"); ("purchases", VStr "20");
                        ("visits", VStr "0")]];
              THRESHOLD := 100 |}
           [] []
           (one_file "users.csv"
              [[("age", VStr "40"); ("purchases", VStr "20");
                ("visits", VStr "0")]])
           "users.csv" []
           [[("age", VStr "40"); ("purchases", VStr "20");
             ("visits", VStr "0")]]
           [[("age", VStr "40"); ("purchases", VStr "20");
             ("visits", VStr "0")]]
           no_files (write_file no_files "report.txt" "") "report.txt"
           (KeyError "name") eq_refl eq_refl eq_refl).
Defined.
